(** * Climate-Monitor: a shallow embedding of CSE321_project3_brettsit_main.cpp

    The program is an mbed application with three threads (the main scan
    loop, the display task [update_lcd] and the monitor task
    [monitor_state]) and four keypad column interrupts.  Its globals are
    gathered in the record [state]; every handler and every thread step is
    a function on it, and [step] interleaves them one event at a time.

    C [int] is [Z] (all values stay far inside 32 bits), C [float] is an
    IEEE binary32 and C [double] an IEEE binary64, both as Rocq's
    [spec_float] with their precision and exponent range. *)

From Stdlib Require Import ZArith List Ascii String Bool Lia.
From Stdlib Require Import Floats.SpecFloat.
Import ListNotations.
Open Scope Z_scope.

(** ** Floating point as in C on the target (float ops in single precision,
    double ops in double precision, both round to nearest even). *)

Definition f32 := spec_float.
Definition f64 := spec_float.

Definition f32_sub := SFsub 24 128.
Definition f32_lt := SFltb.
Definition f32_le := SFleb.
Definition f64_add := SFadd 53 1024.
Definition f64_mul := SFmul 53 1024.
Definition f64_div := SFdiv 53 1024.

(** int -> float and int -> double (implicit conversions). *)
Definition f32_of_int (z : Z) : f32 := binary_normalize 24 128 z 0 false.
Definition f64_of_int (z : Z) : f64 := binary_normalize 53 1024 z 0 false.

Definition signed_mantissa (s : bool) (m : positive) : Z :=
  if s then Zneg m else Zpos m.

(** float -> double (exact widening). *)
Definition f64_of_f32 (x : f32) : f64 :=
  match x with
  | S754_finite s m e => binary_normalize 53 1024 (signed_mantissa s m) e false
  | _ => x
  end.

(** double -> float (the [return] of a [float] function). *)
Definition f32_of_f64 (x : f64) : f32 :=
  match x with
  | S754_finite s m e => binary_round 24 128 s m e
  | S754_zero s => S754_zero s
  | S754_infinity s => S754_infinity s
  | S754_nan => S754_nan
  end.

(** double -> int: truncation toward zero.  NaN, infinities (undefined in
    C) give 0; they never arise from the values the program converts. *)
Definition int_of_f64 (x : f64) : Z :=
  match x with
  | S754_finite s m e =>
      let a := if Z.leb 0 e then Zpos m * 2 ^ e else Zpos m / 2 ^ (- e) in
      if s then - a else a
  | _ => 0
  end.

(** The literal [1.8]: the double nearest to 9/5. *)
Definition d1_8 : f64 := f64_div (f64_of_int 9) (f64_of_int 5).

(** ** Tools for conversion *)

(** [float toFahrenheit(int celcius) { return celcius * 1.8 + 32; }]
    int * double and + 32 in double, then rounded to float. *)
Definition toFahrenheit (celcius : Z) : f32 :=
  f32_of_f64 (f64_add (f64_mul (f64_of_int celcius) d1_8) (f64_of_int 32)).

(** [int toCelcius(float fahrenheit) { return (fahrenheit - 32) / 1.8; }]
    float - int in float, then float / double in double, truncated to int. *)
Definition toCelcius (fahrenheit : f32) : Z :=
  int_of_f64 (f64_div (f64_of_f32 (f32_sub fahrenheit (f32_of_int 32))) d1_8).

(** ** Shared state (the program's globals) *)

Definition IDLE := 0.
Definition INPUT := 1.
Definition MONITOR := 2.
Definition ALERT := 3.

Definition FAHRENHEIT := false.
Definition CELCIUS := true.

Definition MAX_INPUT := 9.
Definition TEMP_MIN_C := 0.
Definition TEMP_MIN_F := 32.
Definition TEMP_MAX_C := 50.
Definition TEMP_MAX_F := 122.
Definition HUMIDITY_MIN := 20.
Definition HUMIDITY_MAX := 95.

(** The thresholds [temp_min_c] ... [humidity_max]. *)
Record ThresholdConfig := mkConfig {
  temp_min_c : Z;
  temp_min_f : f32;
  temp_max_c : Z;
  temp_max_f : f32;
  humidity_min : Z;
  humidity_max : Z }.

(** [input_stage], [input_len], [input_str], [input_modified]. *)
Record InputSession := mkSession {
  input_stage : Z;
  input_len : Z;
  input_str : list ascii;
  input_modified : bool }.

(** [celcius], [fahrenheit], [humidity], as [update_sensor] caches them. *)
Record reading := mkReading {
  celcius : Z;
  fahrenheit : f32;
  humidity : Z }.

(** The alert reasons printed by [monitor_state]. *)
Inductive reason := TempTooLow | TempTooHigh | HumidityTooLow | HumidityTooHigh.

(** What the LCD shows, as the last [lcd.clear()] and prints left it. *)
Inductive screen :=
  | ScrBlank
  | ScrReadings (u : bool) (r : reading)           (* "Temp (C): ..", "Humidity: .." *)
  | ScrPrompt (stage : Z) (text : list ascii)      (* prompts[stage], then input_str *)
  | ScrInvalid                                     (* "Invalid Input", "Please Try Again" *)
  | ScrAlert (r : reason).

Definition reason_lines (r : reason) : string * string :=
  match r with
  | TempTooLow => ("Temperature Too"%string, "Low"%string)
  | TempTooHigh => ("Temperature Too"%string, "High"%string)
  | HumidityTooLow => ("Humidity Too Low"%string, ""%string)
  | HumidityTooHigh => ("Humidity Too"%string, "High"%string)
  end.

(** Program counter of [update_lcd]: the top of its [while (true)], or the
    wait loop of [get_input] for [current_stage]. *)
Inductive lcd_pc := L_Top | L_Wait (current_stage : Z).

(** Program counter of [monitor_state]: the [while (mode == MONITOR)] test,
    the loop body (sensor read and checks), or the loop of [alert()]. *)
Inductive mon_pc := M_Top | M_Body | M_Alert.

Record state := mkState {
  row : Z;
  mode : Z;
  unit : bool;
  session : InputSession;
  cfg : ThresholdConfig;
  sensor : reading;
  lcd : screen;
  t_lcd : lcd_pc;
  t_monitor : mon_pc }.

Definition set_row r s := mkState r (mode s) (unit s) (session s) (cfg s) (sensor s) (lcd s) (t_lcd s) (t_monitor s).
Definition set_mode m s := mkState (row s) m (unit s) (session s) (cfg s) (sensor s) (lcd s) (t_lcd s) (t_monitor s).
Definition set_unit u s := mkState (row s) (mode s) u (session s) (cfg s) (sensor s) (lcd s) (t_lcd s) (t_monitor s).
Definition set_session ss s := mkState (row s) (mode s) (unit s) ss (cfg s) (sensor s) (lcd s) (t_lcd s) (t_monitor s).
Definition set_cfg t s := mkState (row s) (mode s) (unit s) (session s) t (sensor s) (lcd s) (t_lcd s) (t_monitor s).
Definition set_sensor r s := mkState (row s) (mode s) (unit s) (session s) (cfg s) r (lcd s) (t_lcd s) (t_monitor s).
Definition set_lcd l s := mkState (row s) (mode s) (unit s) (session s) (cfg s) (sensor s) l (t_lcd s) (t_monitor s).
Definition set_t_lcd p s := mkState (row s) (mode s) (unit s) (session s) (cfg s) (sensor s) (lcd s) p (t_monitor s).
Definition set_t_monitor p s := mkState (row s) (mode s) (unit s) (session s) (cfg s) (sensor s) (lcd s) (t_lcd s) p.

(** Initial values of the globals; [celcius], [fahrenheit], [humidity]
    are zero-initialised. *)
Definition init_config : ThresholdConfig :=
  mkConfig TEMP_MIN_C (f32_of_int TEMP_MIN_F) TEMP_MAX_C (f32_of_int TEMP_MAX_F)
           HUMIDITY_MIN HUMIDITY_MAX.

Definition init : state :=
  mkState (-1) IDLE CELCIUS (mkSession (-1) (-1) [] false) init_config
          (mkReading 0 (S754_zero false) 0) ScrBlank L_Top M_Top.

(** ** ISR - Keypad Input *)

(** Body shared by [isr_c0], [isr_c1], [isr_c2]: when in INPUT mode with
    [input_len < MAX_INPUT], append the digit of the energised row (if the
    row has a digit branch), then [input_len++] and [input_modified = true]. *)
Definition isr_digit (digit_of_row : Z -> option ascii) (s : state) : state :=
  let ss := session s in
  if (mode s =? INPUT) && (input_len ss <? MAX_INPUT) then
    set_session
      (mkSession (input_stage ss) (input_len ss + 1)
         (match digit_of_row (row s) with
          | Some d => input_str ss ++ [d]
          | None => input_str ss
          end)
         true) s
  else s.

Definition c0_digit (r : Z) : option ascii :=
  if r =? 0 then Some "1"%char else if r =? 1 then Some "4"%char
  else if r =? 2 then Some "7"%char else None.

Definition c1_digit (r : Z) : option ascii :=
  if r =? 0 then Some "2"%char else if r =? 1 then Some "5"%char
  else if r =? 2 then Some "8"%char else if r =? 3 then Some "0"%char else None.

Definition c2_digit (r : Z) : option ascii :=
  if r =? 0 then Some "3"%char else if r =? 1 then Some "6"%char
  else if r =? 2 then Some "9"%char else None.

Definition isr_c0 := isr_digit c0_digit.
Definition isr_c1 := isr_digit c1_digit.
Definition isr_c2 := isr_digit c2_digit.

(** [isr_c3]: A, B, C, D on rows 0..3. *)
Definition isr_c3 (s : state) : state :=
  let ss := session s in
  if row s =? 0 then                                   (* A *)
    if negb (input_stage ss =? -1) then
      set_session (mkSession (input_stage ss + 1) (input_len ss) (input_str ss)
                             (input_modified ss)) s
    else s
  else if row s =? 1 then                              (* B *)
    if negb (mode s =? INPUT) then set_mode IDLE s else s
  else if row s =? 2 then                              (* C *)
    if mode s =? INPUT then
      set_session (mkSession (input_stage ss) 0 [] true) s
    else set_unit (negb (unit s)) s
  else if row s =? 3 then set_mode INPUT s             (* D *)
  else s.

Inductive column := Col0 | Col1 | Col2 | Col3.

Definition isr (c : column) : state -> state :=
  match c with
  | Col0 => isr_c0
  | Col1 => isr_c1
  | Col2 => isr_c2
  | Col3 => isr_c3
  end.

(** One iteration of the scan loop in [main]: [row++; if (row > 3) row = 0;]. *)
Definition scan (s : state) : state :=
  let r := row s + 1 in set_row (if 3 <? r then 0 else r) s.

(** ** Getting input *)

(** [atoi] on the buffer: decimal digits accumulated until the first
    non-digit (the buffer only ever holds digits; no sign or blanks). *)
Fixpoint atoi_acc (acc : Z) (str : list ascii) : Z :=
  match str with
  | [] => acc
  | c :: rest =>
      let d := Z.of_nat (nat_of_ascii c) - 48 in
      if (0 <=? d) && (d <=? 9) then atoi_acc (acc * 10 + d) rest else acc
  end.

Definition atoi (str : list ascii) : Z := atoi_acc 0 str.

(** [get_input] before its wait loop: [print_prompt(prompt); input_str = "";
    input_len = 0;], with [update_lcd] then in the wait loop of the stage. *)
Definition begin_stage (current_stage : Z) (s : state) : state :=
  let ss := session s in
  set_t_lcd (L_Wait current_stage)
    (set_lcd (ScrPrompt current_stage [])
       (set_session (mkSession (input_stage ss) 0 [] (input_modified ss)) s)).

(** The body of the [for] loop of [update_lcd] after [get_input] returns:
    the buffer is parsed and stored for [current_stage], with the paired
    unit recomputed by conversion. *)
Definition store_stage (current_stage : Z) (s : state) : ThresholdConfig :=
  let v := atoi (input_str (session s)) in
  let t := cfg s in
  if current_stage =? 0 then
    if Bool.eqb (unit s) CELCIUS then
      mkConfig v (toFahrenheit v) (temp_max_c t) (temp_max_f t)
               (humidity_min t) (humidity_max t)
    else
      let f := f32_of_int v in
      mkConfig (toCelcius f) f (temp_max_c t) (temp_max_f t)
               (humidity_min t) (humidity_max t)
  else if current_stage =? 1 then
    if Bool.eqb (unit s) CELCIUS then
      mkConfig (temp_min_c t) (temp_min_f t) v (toFahrenheit v)
               (humidity_min t) (humidity_max t)
    else
      let f := f32_of_int v in
      mkConfig (temp_min_c t) (temp_min_f t) (toCelcius f) f
               (humidity_min t) (humidity_max t)
  else if current_stage =? 2 then
    mkConfig (temp_min_c t) (temp_min_f t) (temp_max_c t) (temp_max_f t)
             v (humidity_max t)
  else if current_stage =? 3 then
    mkConfig (temp_min_c t) (temp_min_f t) (temp_max_c t) (temp_max_f t)
             (humidity_min t) v
  else t.

(** [validate_input]; the [int] bounds are compared with the [float]
    fields after conversion to [float]. *)
Definition validate_input (t : ThresholdConfig) : bool :=
  let valid_temp_c :=
    (TEMP_MIN_C <=? temp_min_c t) && (temp_min_c t <=? temp_max_c t)
    && (temp_max_c t <=? TEMP_MAX_C) in
  let valid_temp_f :=
    f32_le (f32_of_int TEMP_MIN_F) (temp_min_f t) && f32_le (temp_min_f t) (temp_max_f t)
    && f32_le (temp_max_f t) (f32_of_int TEMP_MAX_F) in
  let valid_humidity :=
    (HUMIDITY_MIN <=? humidity_min t) && (humidity_min t <=? humidity_max t)
    && (humidity_max t <=? HUMIDITY_MAX) in
  valid_humidity && valid_temp_c && valid_temp_f.

(** ** THREAD 2: [update_lcd], one step.  [rd] is what [sensor.read()]
    returns if the step reads the sensor. *)

Definition update_sensor (rd : reading) (s : state) : state := set_sensor rd s.

Definition lcd_step (rd : reading) (s : state) : state :=
  let ss := session s in
  match t_lcd s with
  | L_Top =>
      if (mode s =? MONITOR) || (mode s =? IDLE) then
        (* lcd.clear(); update_sensor(); print readings; sleep 1000 *)
        let s1 := update_sensor rd s in
        set_lcd (ScrReadings (unit s1) (sensor s1)) s1
      else if mode s =? INPUT then
        (* input_stage = 0; first get_input *)
        begin_stage 0
          (set_session (mkSession 0 (input_len ss) (input_str ss) (input_modified ss)) s)
      else s
  | L_Wait current_stage =>
      if input_stage ss <=? current_stage then
        (* while (input_stage <= current_stage) { if (input_modified) ... } *)
        if input_modified ss then
          set_session (mkSession (input_stage ss) (input_len ss) (input_str ss) false)
            (set_lcd (ScrPrompt current_stage (input_str ss)) s)
        else s
      else
        let s1 := set_cfg (store_stage current_stage s) s in
        if current_stage <? 3 then begin_stage (current_stage + 1) s1
        else
          let ss1 := session s1 in
          let s2 := set_t_lcd L_Top
                      (set_session (mkSession (-1) (input_len ss1) (input_str ss1)
                                              (input_modified ss1)) s1) in
          if validate_input (cfg s2) then set_mode MONITOR s2
          else set_lcd ScrInvalid s2        (* then thread_sleep_for(3000) *)
  end.

(** ** THREAD 3: [monitor_state], one step. *)

(** The chain of checks in the body of [while (mode == MONITOR)]. *)
Definition breach (s : state) : option reason :=
  let t := cfg s in
  let r := sensor s in
  if (Bool.eqb (unit s) FAHRENHEIT && f32_lt (fahrenheit r) (temp_min_f t))
     || (Bool.eqb (unit s) CELCIUS && (celcius r <? temp_min_c t)) then Some TempTooLow
  else if (Bool.eqb (unit s) FAHRENHEIT && f32_lt (temp_max_f t) (fahrenheit r))
     || (Bool.eqb (unit s) CELCIUS && (temp_max_c t <? celcius r)) then Some TempTooHigh
  else if humidity r <? humidity_min t then Some HumidityTooLow
  else if humidity_max t <? humidity r then Some HumidityTooHigh
  else None.

Definition monitor_step (rd : reading) (s : state) : state :=
  match t_monitor s with
  | M_Top =>
      if mode s =? MONITOR then set_t_monitor M_Body s
      else s                                        (* thread_sleep_for(1000) *)
  | M_Body =>
      let s1 := update_sensor rd s in
      match breach s1 with
      | Some r => set_t_monitor M_Alert (set_mode ALERT (set_lcd (ScrAlert r) s1))
      | None => set_t_monitor M_Top s1
      end
  | M_Alert =>
      if mode s =? ALERT then s                     (* beep_and_flash; sleep *)
      else set_t_monitor M_Top s
  end.

(** ** Interleaving of the threads and interrupts *)

(** [Key c r] is a press of the key at row [r], column [c]: the scan loop
    energises row [r] and the interrupt of column [c] fires. *)
Inductive event :=
  | Scan
  | Isr (c : column)
  | Key (c : column) (r : Z)
  | LcdStep (rd : reading)
  | MonStep (rd : reading).

Definition step (s : state) (e : event) : state :=
  match e with
  | Scan => scan s
  | Isr c => isr c s
  | Key c r => isr c (set_row r s)
  | LcdStep rd => lcd_step rd s
  | MonStep rd => monitor_step rd s
  end.

Definition run (s : state) (es : list event) : state := fold_left step es s.

Definition reachable (s : state) : Prop := exists es, s = run init es.

(** ** Concrete inputs *)

(** The key of each digit ([isr_c0] .. [isr_c2]). *)
Definition digit_key (d : ascii) : event :=
  match d with
  | "1"%char => Key Col0 0 | "4"%char => Key Col0 1 | "7"%char => Key Col0 2
  | "2"%char => Key Col1 0 | "5"%char => Key Col1 1 | "8"%char => Key Col1 2
  | "0"%char => Key Col1 3
  | "3"%char => Key Col2 0 | "6"%char => Key Col2 1 | _ => Key Col2 2
  end.

Definition key_A := Key Col3 0.
Definition key_B := Key Col3 1.
Definition key_C := Key Col3 2.
Definition key_D := Key Col3 3.

(** A room reading inside the default range, and a hot one. *)
Definition rd_room : reading := mkReading 25 (f32_of_int 77) 50.
Definition rd_hot : reading := mkReading 45 (f32_of_int 113) 50.

(** Typing a value, confirming with A, and the display task storing it. *)
Definition enter (ds : list ascii) : list event :=
  map digit_key ds ++ [key_A; LcdStep rd_room].

(** D, the display task starting the session, then the four entries. *)
Definition session_keys (a b c d : list ascii) : list event :=
  [key_D; LcdStep rd_room] ++ enter a ++ enter b ++ enter c ++ enter d.

(** The same, stopped just before the display task stores the last value. *)
Definition session_until_last (a b c d : list ascii) : list event :=
  [key_D; LcdStep rd_room] ++ enter a ++ enter b ++ enter c ++ map digit_key d ++ [key_A].

(** D, the session started, the first value typed and confirmed. *)
Definition first_value_keys : list event :=
  [key_D; LcdStep rd_room] ++ map digit_key ["1";"0"]%char ++ [key_A].

Definition s_monitoring : state :=
  run init (session_keys ["1";"0"]%char ["4";"0"]%char ["3";"0"]%char ["8";"0"]%char).

(** From MONITOR: the monitor task passes its [mode == MONITOR] test, D is
    pressed and a new session gets as far as the last value typed, and
    only then does the monitor task finish its body (hot reading). *)
Definition race_keys : list event :=
  [MonStep rd_room; key_D; LcdStep rd_room]
  ++ enter ["1";"0"]%char ++ enter ["4";"0"]%char ++ enter ["3";"0"]%char
  ++ map digit_key ["8";"0"]%char
  ++ [MonStep rd_hot; key_A].

Definition s_race : state := run s_monitoring race_keys.

(** The spec's reading of the monitor checks: the four conditions in
    priority order, against the selected unit; the first true one wins. *)
Definition breach_conditions (u : bool) (t : ThresholdConfig) (r : reading)
  : list (bool * reason) :=
  [ (if u then celcius r <? temp_min_c t else f32_lt (fahrenheit r) (temp_min_f t), TempTooLow);
    (if u then temp_max_c t <? celcius r else f32_lt (temp_max_f t) (fahrenheit r), TempTooHigh);
    (humidity r <? humidity_min t, HumidityTooLow);
    (humidity_max t <? humidity r, HumidityTooHigh) ].

Fixpoint first_true (l : list (bool * reason)) : option reason :=
  match l with
  | [] => None
  | (b, r) :: rest => if b then Some r else first_true rest
  end.

(** The digit a key enters, if it is a digit key. *)
Definition key_digit (c : column) (r : Z) : option ascii :=
  match c with
  | Col0 => c0_digit r
  | Col1 => c1_digit r
  | Col2 => c2_digit r
  | Col3 => None
  end.

Definition press_all (s : state) (ks : list (column * Z)) : state :=
  fold_left (fun s k => step s (Key (fst k) (snd k))) ks s.

Definition key_digits (ks : list (column * Z)) : list ascii :=
  flat_map (fun k => match key_digit (fst k) (snd k) with Some d => [d] | None => [] end) ks.

(** Keys B and D as events in a state. *)
Definition is_B_or_D (s : state) (e : event) : Prop :=
  match e with
  | Key Col3 r => r = 1 \/ r = 3
  | Isr Col3 => row s = 1 \/ row s = 3
  | _ => False
  end.

(** Mode is one of the four constants. *)
Definition mode_ok (m : Z) : Prop := m = IDLE \/ m = INPUT \/ m = MONITOR \/ m = ALERT.

(** [update_lcd] is collecting input only while the mode is not MONITOR. *)
Definition lcd_inv (s : state) : Prop :=
  match t_lcd s with
  | L_Top => True
  | L_Wait _ => mode s <> MONITOR
  end.

(** The chains checked by [validate_input], as stated in the spec. *)
Definition valid_chains (t : ThresholdConfig) : Prop :=
  (0 <= temp_min_c t /\ temp_min_c t <= temp_max_c t /\ temp_max_c t <= 50)
  /\ (f32_le (f32_of_int 32) (temp_min_f t) = true /\ f32_le (temp_min_f t) (temp_max_f t) = true
      /\ f32_le (temp_max_f t) (f32_of_int 122) = true)
  /\ (20 <= humidity_min t /\ humidity_min t <= humidity_max t /\ humidity_max t <= 95).

(** The paired bound is the conversion of the entered one. *)
Definition pair_agrees (u : bool) (c : Z) (f : f32) : Prop :=
  if u then f = toFahrenheit c else c = toCelcius f.

(** The digit test of [atoi_acc], and a digit's value. *)
Definition digit_value (c : ascii) : Z := Z.of_nat (nat_of_ascii c) - 48.

Definition is_digit (c : ascii) : bool := (0 <=? digit_value c) && (digit_value c <=? 9).

(** What [update_lcd] keeps of the input session: the buffer only holds
    digits; outside a session [input_stage] is -1; inside the wait loop of
    [current_stage] that stage is in 0..3, [input_stage] has reached it,
    and the buffer has at most [input_len <= MAX_INPUT] characters. *)
Definition sess_inv (s : state) : Prop :=
  Forall (fun c => is_digit c = true) (input_str (session s))
  /\ match t_lcd s with
     | L_Top => input_stage (session s) = -1
     | L_Wait cs =>
         0 <= cs <= 3 /\ cs <= input_stage (session s)
         /\ 0 <= input_len (session s) <= MAX_INPUT
         /\ Z.of_nat (List.length (input_str (session s))) <= input_len (session s)
     end.

(** The conversions round-trip up to the truncation of [toCelcius]. *)
Definition roundtrip_ok (c : Z) : bool :=
  let r := toCelcius (toFahrenheit c) in (r =? c) || (r =? c - 1).

(** The temperature parts of [validate_input] on a pair of bounds. *)
Definition valid_temp_c_of (a b : Z) : bool :=
  (TEMP_MIN_C <=? a) && (a <=? b) && (b <=? TEMP_MAX_C).

Definition valid_temp_f_of (a b : f32) : bool :=
  f32_le (f32_of_int TEMP_MIN_F) a && f32_le a b && f32_le b (f32_of_int TEMP_MAX_F).

Definition valid_humidity_of (t : ThresholdConfig) : bool :=
  (HUMIDITY_MIN <=? humidity_min t) && (humidity_min t <=? humidity_max t)
  && (humidity_max t <=? HUMIDITY_MAX).

(** Every integer temperature accepted in Celsius or in Fahrenheit. *)
Definition celsius_range : list Z := map Z.of_nat (seq 0 51).
Definition fahrenheit_range : list Z := map (fun n => 32 + Z.of_nat n) (seq 0 91).

(** Celsius entry: the Fahrenheit chain on the converted pair holds
    whenever the Celsius chain does. *)
Definition celsius_pair_ok (a b : Z) : bool :=
  implb (a <=? b) (valid_temp_f_of (toFahrenheit a) (toFahrenheit b)).

(** Fahrenheit entry: both chains on the pair hold exactly when [a <= b]. *)
Definition fahrenheit_pair_ok (a b : Z) : bool :=
  Bool.eqb (valid_temp_c_of (toCelcius (f32_of_int a)) (toCelcius (f32_of_int b))
            && valid_temp_f_of (f32_of_int a) (f32_of_int b))
           (a <=? b).

(** From MONITOR, a room reading and then a hot one: ALERT. *)
Definition s_alert : state := run s_monitoring [MonStep rd_room; MonStep rd_hot].

(** ** Examples *)

Example d1_8_bits : d1_8 = S754_finite false 8106479329266893 (-52).
Proof. vm_compute. reflexivity. Qed.

Example toFahrenheit_10 : toFahrenheit 10 = f32_of_int 50.
Proof. vm_compute. reflexivity. Qed.

Example s_monitoring_mode : mode s_monitoring = MONITOR /\ cfg s_monitoring =
  mkConfig 10 (f32_of_int 50) 40 (f32_of_int 104) 30 80.
Proof. vm_compute. split; reflexivity. Qed.

(** ** Claims *)

(** C1 (counterexample): from the initial state, a completed session with
    min 40 and max 10 fails validation, yet the thresholds are not the
    pre-session defaults and the mode is INPUT, not IDLE. *)
Lemma C1_counterexample :
  let s := run init (session_keys ["4";"0"]%char ["1";"0"]%char ["3";"0"]%char ["8";"0"]%char) in
  validate_input (cfg s) = false /\ cfg s <> cfg init /\ temp_min_c (cfg s) = 40
  /\ mode s = INPUT /\ mode s <> IDLE.
Proof. vm_compute. repeat split; try reflexivity; discriminate. Qed.

(** C2: in INPUT mode with an empty buffer, [*] (row 3, column 0) and [#]
    (row 3, column 2) leave the buffer empty but increment [input_len]
    and set [input_modified]. *)
Theorem C2_star_hash_change_state :
  let s := run init [key_D; LcdStep rd_room] in
  session s = mkSession 0 0 [] false
  /\ session (step s (Key Col0 3)) = mkSession 0 1 [] true
  /\ session (step s (Key Col2 3)) = mkSession 0 1 [] true.
Proof. vm_compute. repeat split; reflexivity. Qed.

(** C7 (counterexample): after the race of [s_race] the mode is ALERT
    with the display task at the end of its last stage; its next step,
    not a B or D key, moves the mode to MONITOR. *)
Lemma C7_counterexample :
  mode s_race = ALERT /\ t_lcd s_race = L_Wait 3
  /\ mode (step s_race (LcdStep rd_room)) = MONITOR.
Proof. vm_compute. repeat split; reflexivity. Qed.

(** C10 (counterexample): [toCelcius (toFahrenheit 1)] is 0. *)
Lemma C10_counterexample : toCelcius (toFahrenheit 1) = 0 /\ 0 <> 1.
Proof. vm_compute. split; [reflexivity | discriminate]. Qed.

Lemma roundtrip_ok_range : forallb roundtrip_ok (map Z.of_nat (seq 0 51)) = true.
Proof. vm_compute. reflexivity. Qed.

(** C10 (amended): for every integer [c] with [0 <= c <= 50],
    [toCelcius (toFahrenheit c)] is [c] or [c - 1]: the float result of
    [toFahrenheit] may lie just below the exact value, and [toCelcius]
    truncates. *)
Theorem C10_roundtrip_within_one (c : Z) (H : 0 <= c <= 50) :
  toCelcius (toFahrenheit c) = c \/ toCelcius (toFahrenheit c) = c - 1.
Proof.
  assert (Hin : In c (map Z.of_nat (seq 0 51))).
  { apply in_map_iff. exists (Z.to_nat c). split; [lia |].
    apply in_seq. lia. }
  pose proof (proj1 (forallb_forall _ _) roundtrip_ok_range c Hin) as Hc.
  unfold roundtrip_ok in Hc. apply orb_true_iff in Hc.
  destruct Hc as [Hc | Hc]; apply Z.eqb_eq in Hc; auto.
Qed.

Lemma C10_witness :
  (0 <= 1 <= 50) /\ (toCelcius (toFahrenheit 1) = 1 \/ toCelcius (toFahrenheit 1) = 1 - 1).
Proof. split; [lia | apply (C10_roundtrip_within_one 1); lia]. Defined.

(** ** How each handler and thread step writes [mode] *)

Lemma scan_mode s : mode (scan s) = mode s.
Proof. reflexivity. Qed.

Lemma isr_digit_mode f s : mode (isr_digit f s) = mode s.
Proof. unfold isr_digit. destruct (_ && _); reflexivity. Qed.

Lemma isr_c3_mode s :
  mode (isr_c3 s) = mode s
  \/ (row s = 1 /\ mode (isr_c3 s) = IDLE)
  \/ (row s = 3 /\ mode (isr_c3 s) = INPUT).
Proof.
  unfold isr_c3.
  destruct (Z.eqb_spec (row s) 0); [destruct (negb _); left; reflexivity |].
  destruct (Z.eqb_spec (row s) 1); [destruct (negb _); auto |].
  destruct (Z.eqb_spec (row s) 2); [destruct (_ =? _); left; reflexivity |].
  destruct (Z.eqb_spec (row s) 3); auto.
Qed.

Lemma isr_mode c s :
  mode (isr c s) = mode s
  \/ (c = Col3 /\ row s = 1 /\ mode (isr c s) = IDLE)
  \/ (c = Col3 /\ row s = 3 /\ mode (isr c s) = INPUT).
Proof.
  destruct c; try (left; apply isr_digit_mode).
  destruct (isr_c3_mode s) as [H | [H | H]]; auto.
Qed.

Lemma begin_stage_mode cs s : mode (begin_stage cs s) = mode s.
Proof. reflexivity. Qed.

Lemma lcd_step_mode rd s :
  mode (lcd_step rd s) = mode s
  \/ (exists cs, t_lcd s = L_Wait cs /\ 3 <= cs /\ mode (lcd_step rd s) = MONITOR).
Proof.
  unfold lcd_step. destruct (t_lcd s) as [| cs] eqn:Ht.
  - destruct (_ || _); [left; reflexivity |].
    destruct (_ =? _); left; reflexivity.
  - destruct (_ <=? cs); [destruct (input_modified _); left; reflexivity |].
    destruct (Z.ltb_spec cs 3); [left; reflexivity |].
    destruct (validate_input _); [right; exists cs; auto | left; reflexivity].
Qed.

Lemma monitor_step_mode rd s :
  mode (monitor_step rd s) = mode s \/ mode (monitor_step rd s) = ALERT.
Proof.
  unfold monitor_step. destruct (t_monitor s).
  - destruct (_ =? _); left; reflexivity.
  - destruct (breach _); [right | left]; reflexivity.
  - destruct (_ =? _); left; reflexivity.
Qed.

Lemma step_mode_ok s e : mode_ok (mode s) -> mode_ok (mode (step s e)).
Proof.
  unfold mode_ok, IDLE, INPUT, MONITOR, ALERT. intros H.
  destruct e as [| c | c r | rd | rd]; cbn [step].
  - rewrite scan_mode. exact H.
  - destruct (isr_mode c s) as [E | [[_ [_ E]] | [_ [_ E]]]]; rewrite E; unfold IDLE, INPUT in *; lia.
  - destruct (isr_mode c (set_row r s)) as [E | [[_ [_ E]] | [_ [_ E]]]]; rewrite E;
      unfold IDLE, INPUT in *; simpl; lia.
  - destruct (lcd_step_mode rd s) as [E | [cs [_ [_ E]]]]; rewrite E; unfold MONITOR in *; lia.
  - destruct (monitor_step_mode rd s) as [E | E]; rewrite E; unfold ALERT in *; lia.
Qed.

Lemma run_mode_ok es s : mode_ok (mode s) -> mode_ok (mode (run s es)).
Proof.
  revert s. induction es as [| e es IH]; intros s H; simpl; [exact H |].
  apply IH. apply step_mode_ok. exact H.
Qed.

(** C6: with row 2 energised (key C) and the mode not INPUT, [isr_c3]
    flips the unit and changes nothing else; two presses give back the
    state, so mode and every threshold are unchanged. *)
Theorem C6_key_C_toggles_unit (s : state) (Hrow : row s = 2) (Hmode : mode s <> INPUT) :
  isr_c3 s = set_unit (negb (unit s)) s /\ isr_c3 (isr_c3 s) = s.
Proof.
  assert (H1 : isr_c3 s = set_unit (negb (unit s)) s).
  { unfold isr_c3. rewrite Hrow. simpl.
    rewrite (proj2 (Z.eqb_neq _ _) Hmode). reflexivity. }
  split; [exact H1 |].
  rewrite H1. unfold isr_c3. simpl. rewrite Hrow. simpl.
  rewrite (proj2 (Z.eqb_neq _ _) Hmode), negb_involutive.
  destruct s; reflexivity.
Qed.

Lemma C6_witness :
  let s := set_row 2 init in
  (row s = 2 /\ mode s <> INPUT)
  /\ (isr_c3 s = set_unit (negb (unit s)) s /\ isr_c3 (isr_c3 s) = s).
Proof.
  split; [split; [reflexivity | discriminate] |].
  apply C6_key_C_toggles_unit; [reflexivity | discriminate].
Defined.

(** C9: [mode] starts as IDLE, every step (scan, interrupt, display or
    monitor step) keeps it in {IDLE, INPUT, MONITOR, ALERT}, hence so does
    every run from the initial state. *)
Theorem C9_mode_in_range :
  mode init = IDLE
  /\ (forall s e, mode_ok (mode s) -> mode_ok (mode (step s e)))
  /\ (forall es, mode_ok (mode (run init es))).
Proof.
  split; [reflexivity | split; [exact step_mode_ok |]].
  intros es. apply run_mode_ok. left; reflexivity.
Qed.

(** ** Digit entry *)

Lemma isr_digit_input f s d :
  mode s = INPUT -> f (row s) = Some d ->
  mode (isr_digit f s) = INPUT
  /\ session (isr_digit f s) =
     (if input_len (session s) <? MAX_INPUT
      then mkSession (input_stage (session s)) (input_len (session s) + 1)
                     (input_str (session s) ++ [d]) true
      else session s).
Proof.
  intros Hm Hf. unfold isr_digit. rewrite Hm, Hf, Z.eqb_refl. simpl.
  destruct (_ <? _); simpl; auto.
Qed.

Lemma key_digit_step s c r d :
  mode s = INPUT -> key_digit c r = Some d ->
  mode (step s (Key c r)) = INPUT
  /\ session (step s (Key c r)) =
     (if input_len (session s) <? MAX_INPUT
      then mkSession (input_stage (session s)) (input_len (session s) + 1)
                     (input_str (session s) ++ [d]) true
      else session s).
Proof.
  intros Hm Hd.
  destruct c; simpl in Hd; try discriminate; cbn [step isr];
    [unfold isr_c0 | unfold isr_c1 | unfold isr_c2];
    exact (isr_digit_input _ (set_row r s) d Hm Hd).
Qed.

Lemma firstn_app_full {A} (l x : list A) n : List.length l = n -> firstn n (l ++ x) = l.
Proof.
  intros H. rewrite firstn_app, H, Nat.sub_diag, firstn_O, app_nil_r, <- H.
  apply firstn_all.
Qed.

Lemma press_all_cons s k ks :
  press_all s (k :: ks) = press_all (step s (Key (fst k) (snd k))) ks.
Proof. reflexivity. Qed.

Lemma press_all_digits ks s :
  Forall (fun k => key_digit (fst k) (snd k) <> None) ks ->
  mode s = INPUT ->
  input_len (session s) = Z.of_nat (List.length (input_str (session s))) ->
  (List.length (input_str (session s)) <= 9)%nat ->
  mode (press_all s ks) = INPUT
  /\ input_str (session (press_all s ks)) = firstn 9 (input_str (session s) ++ key_digits ks)
  /\ input_len (session (press_all s ks)) = Z.of_nat (List.length (input_str (session (press_all s ks)))).
Proof.
  revert s. induction ks as [| [c r] ks IH]; intros s Hk Hm Hl H9.
  - unfold press_all, key_digits. cbn [fold_left flat_map].
    rewrite app_nil_r, firstn_all2 by lia. auto.
  - inversion Hk as [| k ks' Hd Hks]; subst. simpl in Hd.
    destruct (key_digit c r) as [d |] eqn:Ed; [| contradiction].
    destruct (key_digit_step s c r d Hm Ed) as [Hm1 Hs1].
    rewrite press_all_cons. simpl fst; simpl snd.
    assert (Hkd : key_digits ((c, r) :: ks) = d :: key_digits ks)
      by (unfold key_digits; simpl; rewrite Ed; reflexivity).
    rewrite Hkd.
    destruct (Z.ltb_spec (input_len (session s)) MAX_INPUT) as [Hlt | Hge].
    + assert (Hl1 : input_len (session (step s (Key c r)))
                    = Z.of_nat (List.length (input_str (session (step s (Key c r))))))
        by (rewrite Hs1; simpl; rewrite length_app; simpl; lia).
      assert (H91 : (List.length (input_str (session (step s (Key c r)))) <= 9)%nat)
        by (rewrite Hs1; simpl; rewrite length_app; simpl; unfold MAX_INPUT in Hlt; lia).
      destruct (IH (step s (Key c r)) Hks Hm1 Hl1 H91) as [Hm2 [Hs2 Hl2]].
      split; [exact Hm2 |]. split; [| exact Hl2].
      rewrite Hs2, Hs1. simpl. rewrite <- app_assoc. reflexivity.
    + assert (Hss : session (step s (Key c r)) = session s) by exact Hs1.
      destruct (IH (step s (Key c r)) Hks Hm1) as [Hm2 [Hs2 Hl2]];
        [rewrite Hss; exact Hl | rewrite Hss; exact H9 |].
      split; [exact Hm2 |]. split; [| exact Hl2].
      rewrite Hs2, Hss. unfold MAX_INPUT in Hge.
      rewrite !firstn_app_full by lia. reflexivity.
Qed.

Lemma key_digits_length ks :
  Forall (fun k => key_digit (fst k) (snd k) <> None) ks -> List.length (key_digits ks) = List.length ks.
Proof.
  induction 1 as [| [c r] ks Hd _ IH]; [reflexivity |].
  unfold key_digits in *. simpl in *. destruct (key_digit c r); [| contradiction].
  simpl. rewrite IH. reflexivity.
Qed.

(** C3: from an empty buffer in INPUT mode, a sequence of digit keys
    leaves in the buffer the first 9 of its digits in arrival order (all
    of them when there are at most 9), the length is [min (length ks) 9],
    and once the length is 9 a further digit key changes neither. *)
Theorem C3_digit_sequence (ks : list (column * Z)) (s : state)
  (Hk : Forall (fun k => key_digit (fst k) (snd k) <> None) ks)
  (Hm : mode s = INPUT) (Hs : input_str (session s) = []) (Hl : input_len (session s) = 0) :
  let s' := press_all s ks in
  input_str (session s') = firstn 9 (key_digits ks)
  /\ ((List.length ks <= 9)%nat -> input_str (session s') = key_digits ks)
  /\ input_len (session s') = Z.of_nat (Nat.min (List.length ks) 9)
  /\ (forall c r, key_digit c r <> None -> input_len (session s') = 9 ->
        session (step s' (Key c r)) = session s').
Proof.
  destruct (press_all_digits ks s Hk Hm) as [Hm' [Hs' Hl']];
    [rewrite Hs, Hl; reflexivity | rewrite Hs; simpl; lia |].
  rewrite Hs, app_nil_l in Hs'.
  pose proof (key_digits_length ks Hk) as Hlen.
  cbv zeta. split; [exact Hs' |]. split; [| split].
  - intros H9. rewrite Hs'. apply firstn_all2. lia.
  - rewrite Hl', Hs', length_firstn, Hlen, Nat.min_comm. reflexivity.
  - intros c r Hd Hfull. destruct (key_digit c r) as [d |] eqn:Ed; [| contradiction].
    destruct (key_digit_step (press_all s ks) c r d Hm' Ed) as [_ E].
    rewrite E, Hfull. reflexivity.
Qed.

Lemma C3_witness :
  let s := run init [key_D; LcdStep rd_room] in
  let ks := [(Col0, 0); (Col1, 3)] in
  (Forall (fun k => key_digit (fst k) (snd k) <> None) ks
   /\ mode s = INPUT /\ input_str (session s) = [] /\ input_len (session s) = 0)
  /\ (let s' := press_all s ks in
      input_str (session s') = firstn 9 (key_digits ks)
      /\ ((List.length ks <= 9)%nat -> input_str (session s') = key_digits ks)
      /\ input_len (session s') = Z.of_nat (Nat.min (List.length ks) 9)
      /\ (forall c r, key_digit c r <> None -> input_len (session s') = 9 ->
            session (step s' (Key c r)) = session s')).
Proof.
  assert (Hk : Forall (fun k => key_digit (fst k) (snd k) <> None) [(Col0, 0); (Col1, 3)])
    by (repeat constructor; discriminate).
  split; [repeat split; [exact Hk | reflexivity ..] |].
  apply C3_digit_sequence; [exact Hk | reflexivity ..].
Defined.

(** ** Monitor task *)

Lemma monitor_body rd s :
  t_monitor s = M_Body ->
  monitor_step rd s =
    match first_true (breach_conditions (unit s) (cfg s) rd) with
    | Some r => set_t_monitor M_Alert (set_mode ALERT (set_lcd (ScrAlert r) (update_sensor rd s)))
    | None => set_t_monitor M_Top (update_sensor rd s)
    end.
Proof.
  intros Hpc. unfold monitor_step. rewrite Hpc.
  unfold breach, breach_conditions, update_sensor, FAHRENHEIT, CELCIUS.
  cbn [sensor cfg unit set_sensor first_true].
  destruct (unit s); cbn [Bool.eqb andb orb first_true]; rewrite ?orb_false_r;
    repeat match goal with |- context [if ?b then _ else _] => destruct b end;
    reflexivity.
Qed.

(** C4: in its loop body the monitor task takes a fresh reading and
    raises ALERT with the first true condition among low temperature,
    high temperature (both in the selected unit), low humidity, high
    humidity, else goes back to its [mode == MONITOR] test, which enters
    the body only in MONITOR.  With thresholds [10,40] C and [30,80] %,
    Celsius selected and a reading of 45 C, 50 %, the reason is
    "Temperature Too High". *)
Theorem C4_monitor_priority (s : state) (rd : reading) (Hpc : t_monitor s = M_Body) :
  monitor_step rd s =
    match first_true (breach_conditions (unit s) (cfg s) rd) with
    | Some r => set_t_monitor M_Alert (set_mode ALERT (set_lcd (ScrAlert r) (update_sensor rd s)))
    | None => set_t_monitor M_Top (update_sensor rd s)
    end
  /\ (forall s0, t_monitor s0 = M_Top ->
        (t_monitor (monitor_step rd s0) = M_Body <-> mode s0 = MONITOR))
  /\ (forall f, temp_min_c (cfg s) = 10 -> temp_max_c (cfg s) = 40 ->
        humidity_min (cfg s) = 30 -> humidity_max (cfg s) = 80 -> unit s = CELCIUS ->
        mode (monitor_step (mkReading 45 f 50) s) = ALERT
        /\ lcd (monitor_step (mkReading 45 f 50) s) = ScrAlert TempTooHigh
        /\ reason_lines TempTooHigh = ("Temperature Too"%string, "High"%string)).
Proof.
  split; [apply monitor_body; exact Hpc |]. split.
  - intros s0 H0. unfold monitor_step. rewrite H0.
    destruct (Z.eqb_spec (mode s0) MONITOR) as [E | E]; simpl.
    + tauto.
    + rewrite H0. split; [discriminate | contradiction].
  - intros f H1 H2 H3 H4 Hu. rewrite (monitor_body _ s Hpc).
    unfold breach_conditions. rewrite Hu, H1, H2, H3, H4. simpl.
    repeat split; reflexivity.
Qed.

Lemma C4_witness :
  let s := set_t_monitor M_Body s_monitoring in
  t_monitor s = M_Body
  /\ (monitor_step rd_hot s =
    match first_true (breach_conditions (unit s) (cfg s) rd_hot) with
    | Some r => set_t_monitor M_Alert (set_mode ALERT (set_lcd (ScrAlert r) (update_sensor rd_hot s)))
    | None => set_t_monitor M_Top (update_sensor rd_hot s)
    end
  /\ (forall s0, t_monitor s0 = M_Top ->
        (t_monitor (monitor_step rd_hot s0) = M_Body <-> mode s0 = MONITOR))
  /\ (forall f, temp_min_c (cfg s) = 10 -> temp_max_c (cfg s) = 40 ->
        humidity_min (cfg s) = 30 -> humidity_max (cfg s) = 80 -> unit s = CELCIUS ->
        mode (monitor_step (mkReading 45 f 50) s) = ALERT
        /\ lcd (monitor_step (mkReading 45 f 50) s) = ScrAlert TempTooHigh
        /\ reason_lines TempTooHigh = ("Temperature Too"%string, "High"%string))).
Proof. split; [reflexivity | apply C4_monitor_priority; reflexivity]. Defined.

Example C4_example_run :
  let s := monitor_step rd_hot (set_t_monitor M_Body s_monitoring) in
  mode s = ALERT /\ lcd s = ScrAlert TempTooHigh.
Proof. vm_compute. split; reflexivity. Qed.

(** ** Display task: INPUT sessions *)

Lemma isr_t_lcd c s : t_lcd (isr c s) = t_lcd s.
Proof.
  destruct c; cbn [isr];
    [unfold isr_c0 | unfold isr_c1 | unfold isr_c2 | unfold isr_c3 | ..];
    try unfold isr_digit;
    repeat match goal with |- context [if ?b then _ else _] => destruct b end;
    reflexivity.
Qed.

Lemma lcd_inv_frame s s' :
  t_lcd s' = t_lcd s -> (mode s' = mode s \/ mode s' <> MONITOR) -> lcd_inv s -> lcd_inv s'.
Proof.
  unfold lcd_inv. intros Ht Hm H. rewrite Ht.
  destruct (t_lcd s); [exact I |]. destruct Hm as [Hm | Hm]; [rewrite Hm |]; exact H || exact Hm.
Qed.

Lemma lcd_inv_step s e : lcd_inv s -> lcd_inv (step s e).
Proof.
  intros H. destruct e as [| c | c r | rd | rd]; cbn [step].
  - exact H.
  - apply (lcd_inv_frame s); [apply isr_t_lcd | | exact H].
    destruct (isr_mode c s) as [E | [[_ [_ E]] | [_ [_ E]]]]; [left; exact E | (right; rewrite E; discriminate) ..].
  - apply (lcd_inv_frame (set_row r s)); [apply isr_t_lcd | | exact H].
    destruct (isr_mode c (set_row r s)) as [E | [[_ [_ E]] | [_ [_ E]]]];
      [left; exact E | (right; rewrite E; discriminate) ..].
  - unfold lcd_inv in *. unfold lcd_step.
    destruct (t_lcd s) as [| cs] eqn:Ht.
    + destruct (_ || _); [cbn; rewrite ?Ht; exact I |].
      destruct (Z.eqb_spec (mode s) INPUT) as [E | E]; [| cbn; rewrite ?Ht; exact I].
      cbn. rewrite E. discriminate.
    + destruct (_ <=? cs); [destruct (input_modified _); cbn; rewrite ?Ht; exact H |].
      destruct (_ <? 3); [cbn; exact H |].
      destruct (validate_input _); exact I.
  - apply (lcd_inv_frame s); [unfold monitor_step; destruct (t_monitor s); repeat (destruct (_ =? _) || destruct (breach _)); reflexivity | | exact H].
    destruct (monitor_step_mode rd s) as [E | E]; [left | right; rewrite E; discriminate]; exact E.
Qed.

Lemma run_lcd_inv es s : lcd_inv s -> lcd_inv (run s es).
Proof.
  revert s. induction es as [| e es IH]; intros s H; [exact H |].
  apply IH, lcd_inv_step, H.
Qed.

Lemma reachable_lcd_inv es : lcd_inv (run init es).
Proof. apply run_lcd_inv. exact I. Qed.

Lemma validate_input_spec t : validate_input t = true <-> valid_chains t.
Proof.
  unfold validate_input, valid_chains, TEMP_MIN_C, TEMP_MAX_C, TEMP_MIN_F, TEMP_MAX_F,
    HUMIDITY_MIN, HUMIDITY_MAX.
  rewrite !andb_true_iff, !Z.leb_le. tauto.
Qed.

(** [update_lcd] leaving the wait loop of [current_stage]. *)
Lemma lcd_step_store rd s cs :
  t_lcd s = L_Wait cs -> cs < input_stage (session s) ->
  cfg (lcd_step rd s) = store_stage cs s.
Proof.
  intros Hpc Hst. unfold lcd_step. rewrite Hpc.
  replace (input_stage (session s) <=? cs) with false by (symmetry; apply Z.leb_gt; lia).
  destruct (cs <? 3); [reflexivity |]. destruct (validate_input _); reflexivity.
Qed.

Lemma lcd_step_last rd s :
  t_lcd s = L_Wait 3 -> 3 < input_stage (session s) ->
  let s2 := set_t_lcd L_Top
              (set_session (mkSession (-1) (input_len (session s)) (input_str (session s))
                                      (input_modified (session s)))
                 (set_cfg (store_stage 3 s) s)) in
  lcd_step rd s = if validate_input (store_stage 3 s) then set_mode MONITOR s2
                  else set_lcd ScrInvalid s2.
Proof.
  intros Hpc Hst. unfold lcd_step. rewrite Hpc.
  replace (input_stage (session s) <=? 3) with false by (symmetry; apply Z.leb_gt; lia).
  reflexivity.
Qed.

(** C1 (amended): when the fourth stage completes and validation fails,
    the thresholds are those stored during the session (nothing restores
    the previous ones), the "Invalid Input" screen is shown (followed by
    a 3000 ms sleep), [input_stage] is back to -1 and [mode] is not
    written; in INPUT mode the display task's next step starts a new
    session with stage 0 and an empty buffer. *)
Theorem C1_invalid_session (s : state) (rd rd' : reading)
  (Hpc : t_lcd s = L_Wait 3) (Hst : 3 < input_stage (session s))
  (Hinv : validate_input (cfg (lcd_step rd s)) = false) :
  let s' := lcd_step rd s in
  cfg s' = store_stage 3 s /\ lcd s' = ScrInvalid /\ mode s' = mode s
  /\ t_lcd s' = L_Top /\ input_stage (session s') = -1
  /\ (mode s = INPUT ->
      let s'' := lcd_step rd' s' in
      t_lcd s'' = L_Wait 0 /\ input_stage (session s'') = 0
      /\ input_str (session s'') = [] /\ input_len (session s'') = 0).
Proof.
  rewrite (lcd_step_store rd s 3 Hpc Hst) in Hinv.
  cbv zeta. rewrite (lcd_step_last rd s Hpc Hst), Hinv.
  do 5 (split; [reflexivity |]).
  intros Hm. unfold lcd_step at 1. cbn. rewrite Hm. cbn. repeat split.
Qed.

Lemma C1_witness :
  let s := run init (session_until_last ["4";"0"]%char ["1";"0"]%char ["3";"0"]%char ["8";"0"]%char) in
  (t_lcd s = L_Wait 3 /\ 3 < input_stage (session s)
   /\ validate_input (cfg (lcd_step rd_room s)) = false)
  /\ (let s' := lcd_step rd_room s in
      cfg s' = store_stage 3 s /\ lcd s' = ScrInvalid /\ mode s' = mode s
      /\ t_lcd s' = L_Top /\ input_stage (session s') = -1
      /\ (mode s = INPUT ->
          let s'' := lcd_step rd_room s' in
          t_lcd s'' = L_Wait 0 /\ input_stage (session s'') = 0
          /\ input_str (session s'') = [] /\ input_len (session s'') = 0)).
Proof.
  split; [vm_compute; repeat split; reflexivity |].
  apply C1_invalid_session; vm_compute; reflexivity.
Defined.

(** C5: in every run from the initial state, when the display task
    leaves the wait loop of the fourth stage, the configuration written
    is the one parsed from the session, and the mode becomes MONITOR if
    and only if [0 <= temp_min_c <= temp_max_c <= 50],
    [32 <= temp_min_f <= temp_max_f <= 122] and
    [20 <= humidity_min <= humidity_max <= 95] hold of it. *)
Theorem C5_monitor_iff_valid (es : list event) (rd : reading)
  (Hpc : t_lcd (run init es) = L_Wait 3) (Hst : 3 < input_stage (session (run init es))) :
  let s := run init es in
  let s' := lcd_step rd s in
  cfg s' = store_stage 3 s /\ (mode s' = MONITOR <-> valid_chains (cfg s')).
Proof.
  cbv zeta. set (s := run init es) in *.
  pose proof (reachable_lcd_inv es) as Hinv. fold s in Hinv.
  unfold lcd_inv in Hinv. rewrite Hpc in Hinv.
  split; [apply lcd_step_store; assumption |].
  rewrite <- validate_input_spec, (lcd_step_store rd s 3 Hpc Hst).
  rewrite (lcd_step_last rd s Hpc Hst).
  destruct (validate_input (store_stage 3 s)); cbn; [tauto |].
  split; [intros E; contradiction | discriminate].
Qed.

Lemma C5_witness :
  let es := session_until_last ["1";"0"]%char ["4";"0"]%char ["3";"0"]%char ["8";"0"]%char in
  (t_lcd (run init es) = L_Wait 3 /\ 3 < input_stage (session (run init es)))
  /\ (let s := run init es in
      let s' := lcd_step rd_room s in
      cfg s' = store_stage 3 s /\ (mode s' = MONITOR <-> valid_chains (cfg s'))).
Proof.
  split; [vm_compute; split; reflexivity |].
  apply C5_monitor_iff_valid; vm_compute; reflexivity.
Defined.

(** ** Leaving ALERT *)

(** C7 (amended): in ALERT, B sets the mode to IDLE and D to INPUT,
    whatever the state (an alert cycle of the monitor task changes
    nothing); after D the display task, if idle, starts a fresh session
    (stage 0, empty buffer, length 0).  Any other event that moves the
    mode out of ALERT is a display step ending a fourth stage with valid
    input (mode MONITOR), possible only when ALERT was raised during an
    INPUT session. *)
Theorem C7_alert_exit (s : state) (Ha : mode s = ALERT) :
  mode (step s key_B) = IDLE
  /\ mode (step s key_D) = INPUT
  /\ (forall rd, t_lcd s = L_Top ->
        let s2 := step (step s key_D) (LcdStep rd) in
        mode s2 = INPUT /\ t_lcd s2 = L_Wait 0 /\ input_stage (session s2) = 0
        /\ input_str (session s2) = [] /\ input_len (session s2) = 0)
  /\ (forall rd, t_monitor s = M_Alert -> monitor_step rd s = s)
  /\ (forall e, mode (step s e) <> ALERT ->
        is_B_or_D s e
        \/ (exists rd cs, e = LcdStep rd /\ t_lcd s = L_Wait cs /\ 3 <= cs
                          /\ mode (step s e) = MONITOR)).
Proof.
  split; [unfold step, key_B; cbn; rewrite Ha; reflexivity |].
  split; [reflexivity |].
  split.
  { intros rd Ht. unfold step at 1, key_D. cbn. unfold lcd_step. cbn. rewrite Ht. cbn.
    repeat split. }
  split.
  { intros rd Hm. unfold monitor_step. rewrite Hm, Ha. reflexivity. }
  intros e He. destruct e as [| c | c r | rd | rd]; cbn [step] in *.
  - rewrite scan_mode in He. contradiction.
  - destruct (isr_mode c s) as [E | [[Ec [Er _]] | [Ec [Er _]]]];
      [rewrite E in He; contradiction | subst c; left; simpl; auto ..].
  - destruct (isr_mode c (set_row r s)) as [E | [[Ec [Er _]] | [Ec [Er _]]]];
      [rewrite E in He; contradiction | subst c; left; simpl in Er; simpl; auto ..].
  - destruct (lcd_step_mode rd s) as [E | [cs [Ht [H3 E]]]];
      [rewrite E in He; contradiction |].
    right. exists rd, cs. auto.
  - destruct (monitor_step_mode rd s) as [E | E]; rewrite E in He; [contradiction | ].
    exfalso. apply He. reflexivity.
Qed.

Lemma C7_witness :
  mode s_race = ALERT
  /\ (mode (step s_race key_B) = IDLE
  /\ mode (step s_race key_D) = INPUT
  /\ (forall rd, t_lcd s_race = L_Top ->
        let s2 := step (step s_race key_D) (LcdStep rd) in
        mode s2 = INPUT /\ t_lcd s2 = L_Wait 0 /\ input_stage (session s2) = 0
        /\ input_str (session s2) = [] /\ input_len (session s2) = 0)
  /\ (forall rd, t_monitor s_race = M_Alert -> monitor_step rd s_race = s_race)
  /\ (forall e, mode (step s_race e) <> ALERT ->
        is_B_or_D s_race e
        \/ (exists rd cs, e = LcdStep rd /\ t_lcd s_race = L_Wait cs /\ 3 <= cs
                          /\ mode (step s_race e) = MONITOR))).
Proof.
  assert (Ha : mode s_race = ALERT) by (vm_compute; reflexivity).
  split; [exact Ha | exact (C7_alert_exit s_race Ha)].
Defined.

(** ** Paired temperature bounds *)

(** C8: when the display task stores stage 0 (minimum) or stage 1
    (maximum), the bound of the other unit is the conversion of the
    entered one ([toFahrenheit] in Celsius, [toCelcius] in Fahrenheit);
    the other stages leave that pair as it is.  Entering 10 and 40 in
    Celsius gives [temp_min_f = toFahrenheit 10 = 50.0] and
    [temp_max_f = toFahrenheit 40 = 104.0]. *)
Theorem C8_paired_bounds (s : state) (rd : reading) (cs : Z)
  (Hpc : t_lcd s = L_Wait cs) (Hst : cs < input_stage (session s)) :
  let t := cfg (lcd_step rd s) in
  (cs = 0 -> pair_agrees (unit s) (temp_min_c t) (temp_min_f t))
  /\ (cs = 1 -> pair_agrees (unit s) (temp_max_c t) (temp_max_f t))
  /\ (cs <> 0 -> temp_min_c t = temp_min_c (cfg s) /\ temp_min_f t = temp_min_f (cfg s))
  /\ (cs <> 1 -> temp_max_c t = temp_max_c (cfg s) /\ temp_max_f t = temp_max_f (cfg s))
  /\ (toFahrenheit 10 = f32_of_int 50 /\ toFahrenheit 40 = f32_of_int 104)
  /\ (mode s_monitoring = MONITOR /\ temp_min_f (cfg s_monitoring) = toFahrenheit 10
      /\ temp_max_f (cfg s_monitoring) = toFahrenheit 40).
Proof.
  cbv zeta. rewrite (lcd_step_store rd s cs Hpc Hst).
  split; [| split; [| split; [| split; [| split]]]].
  - intros ->. unfold store_stage, pair_agrees. simpl.
    destruct (unit s); simpl; reflexivity.
  - intros ->. unfold store_stage, pair_agrees. simpl.
    destruct (unit s); simpl; reflexivity.
  - intros H0. unfold store_stage. rewrite (proj2 (Z.eqb_neq _ _) H0).
    destruct (cs =? 1); [destruct (Bool.eqb _ _) |]; [auto .. |].
    destruct (cs =? 2); [| destruct (cs =? 3)]; auto.
  - intros H1. unfold store_stage. rewrite (proj2 (Z.eqb_neq cs 1) H1).
    destruct (cs =? 0); [destruct (Bool.eqb _ _) |]; [auto .. |].
    destruct (cs =? 2); [| destruct (cs =? 3)]; auto.
  - vm_compute. split; reflexivity.
  - vm_compute. repeat split.
Qed.

Lemma C8_witness :
  let s := run init first_value_keys in
  (t_lcd s = L_Wait 0 /\ 0 < input_stage (session s))
  /\ (let t := cfg (lcd_step rd_room s) in
  (0 = 0 -> pair_agrees (unit s) (temp_min_c t) (temp_min_f t))
  /\ (0 = 1 -> pair_agrees (unit s) (temp_max_c t) (temp_max_f t))
  /\ (0 <> 0 -> temp_min_c t = temp_min_c (cfg s) /\ temp_min_f t = temp_min_f (cfg s))
  /\ (0 <> 1 -> temp_max_c t = temp_max_c (cfg s) /\ temp_max_f t = temp_max_f (cfg s))
  /\ (toFahrenheit 10 = f32_of_int 50 /\ toFahrenheit 40 = f32_of_int 104)
  /\ (mode s_monitoring = MONITOR /\ temp_min_f (cfg s_monitoring) = toFahrenheit 10
      /\ temp_max_f (cfg s_monitoring) = toFahrenheit 40)).
Proof.
  split; [vm_compute; split; reflexivity |].
  apply C8_paired_bounds; vm_compute; reflexivity.
Defined.

(** ** The input session invariant *)

Lemma sess_inv_frame s s' :
  session s' = session s -> t_lcd s' = t_lcd s -> sess_inv s -> sess_inv s'.
Proof. unfold sess_inv. intros -> ->. exact (fun H => H). Qed.

Lemma digit_of_row_is_digit c r d : key_digit c r = Some d -> is_digit d = true.
Proof.
  destruct c; simpl; [unfold c0_digit | unfold c1_digit | unfold c2_digit | discriminate];
    repeat (destruct (_ =? _)); intros H; inversion H; reflexivity.
Qed.

Lemma isr_digit_sess_inv c s :
  c <> Col3 -> sess_inv s -> sess_inv (isr c s).
Proof.
  intros Hc [Hd Hw].
  assert (Hf : exists f, isr c s = isr_digit f s /\ forall r d, f r = Some d -> is_digit d = true).
  { destruct c; [exists c0_digit | exists c1_digit | exists c2_digit | contradiction].
    - split; [reflexivity | intros r d; exact (digit_of_row_is_digit Col0 r d)].
    - split; [reflexivity | intros r d; exact (digit_of_row_is_digit Col1 r d)].
    - split; [reflexivity | intros r d; exact (digit_of_row_is_digit Col2 r d)]. }
  destruct Hf as [f [-> Hf]].
  unfold isr_digit. destruct (_ && _) eqn:E; [| split; assumption].
  apply andb_true_iff in E. destruct E as [_ E]. apply Z.ltb_lt in E.
  unfold sess_inv. cbn. split.
  - destruct (f (row s)) eqn:Ef; [| exact Hd].
    apply Forall_app. split; [exact Hd | constructor; [eapply Hf; eauto | constructor]].
  - destruct (t_lcd s) as [| cs]; [exact Hw |].
    destruct Hw as [H1 [H2 [H3 H4]]]. unfold MAX_INPUT in *.
    repeat split; try lia.
    destruct (f (row s)); [rewrite length_app; simpl |]; lia.
Qed.

Lemma isr_c3_sess_inv s : sess_inv s -> sess_inv (isr_c3 s).
Proof.
  intros [Hd Hw]. unfold isr_c3.
  destruct (Z.eqb_spec (row s) 0).
  - destruct (Z.eqb_spec (input_stage (session s)) (-1)) as [E | E]; cbn; [split; assumption |].
    split; [exact Hd |]. cbn. destruct (t_lcd s) as [| cs]; [contradiction |].
    destruct Hw as [H1 [H2 [H3 H4]]]. unfold MAX_INPUT in *. repeat split; lia.
  - destruct (Z.eqb_spec (row s) 1); [destruct (negb _); split; assumption |].
    destruct (Z.eqb_spec (row s) 2).
    + destruct (_ =? _); [| split; assumption].
      split; [constructor |]. cbn. destruct (t_lcd s); [exact Hw |].
      unfold MAX_INPUT. destruct Hw as [H1 [H2 _]]. cbn. repeat split; lia.
    + destruct (_ =? _); split; assumption.
Qed.

Lemma isr_sess_inv c s : sess_inv s -> sess_inv (isr c s).
Proof.
  destruct c; [apply isr_digit_sess_inv; discriminate .. | apply isr_c3_sess_inv].
Qed.

Lemma monitor_step_frame rd s :
  session (monitor_step rd s) = session s /\ t_lcd (monitor_step rd s) = t_lcd s.
Proof.
  unfold monitor_step. destruct (t_monitor s);
    repeat (destruct (_ =? _) || destruct (breach _)); split; reflexivity.
Qed.

Lemma lcd_step_sess_inv rd s : sess_inv s -> sess_inv (lcd_step rd s).
Proof.
  intros [Hd Hw]. unfold lcd_step.
  destruct (t_lcd s) as [| cs] eqn:Ht.
  - destruct (_ || _).
    + split; [exact Hd |]. cbn. rewrite Ht. exact Hw.
    + destruct (_ =? _); [| split; [exact Hd | rewrite Ht; exact Hw]].
      split; [constructor |]. cbn. unfold MAX_INPUT. repeat split; lia.
  - destruct Hw as [H1 [H2 [H3 H4]]].
    destruct (Z.leb_spec (input_stage (session s)) cs) as [Hle | Hgt].
    + destruct (input_modified _); split; try exact Hd; cbn; rewrite ?Ht;
        exact (conj H1 (conj H2 (conj H3 H4))).
    + destruct (Z.ltb_spec cs 3).
      * split; [constructor |]. cbn. unfold MAX_INPUT. repeat split; lia.
      * destruct (validate_input _); (split; [exact Hd | reflexivity]).
Qed.

Lemma sess_inv_step s e : sess_inv s -> sess_inv (step s e).
Proof.
  intros H. destruct e as [| c | c r | rd | rd]; cbn [step].
  - exact H.
  - apply isr_sess_inv, H.
  - apply (isr_sess_inv c (set_row r s)), H.
  - apply lcd_step_sess_inv, H.
  - destruct (monitor_step_frame rd s) as [E1 E2]. exact (sess_inv_frame s _ E1 E2 H).
Qed.

Lemma run_sess_inv es s : sess_inv s -> sess_inv (run s es).
Proof.
  revert s. induction es as [| e es IH]; intros s H; [exact H |].
  apply IH, sess_inv_step, H.
Qed.

(** X1: in every run from the initial state, the input buffer holds only
    decimal digits; while the display task is not collecting input,
    [input_stage] is -1; while it waits in the loop of stage [cs], [cs] is
    in 0..3, [input_stage >= cs], [0 <= input_len <= 9] and the buffer has
    at most [input_len] characters. *)
Theorem X1_session_invariant (es : list event) : sess_inv (run init es).
Proof. apply run_sess_inv. split; [constructor | reflexivity]. Qed.

(** ** Parsing the buffer *)





(** ** Keys *)

(** X3: in every run, pressing A while the display task is not collecting
    input changes nothing (besides the energised row): [input_stage] is
    -1 there, which [isr_c3] leaves alone. *)
Theorem X3_key_A_outside_session (es : list event)
  (Ht : t_lcd (run init es) = L_Top) :
  step (run init es) key_A = set_row 0 (run init es).
Proof.
  destruct (X1_session_invariant es) as [_ Hw]. rewrite Ht in Hw.
  unfold step, key_A. cbn [isr]. unfold isr_c3. cbn. rewrite Hw. reflexivity.
Qed.

Lemma X3_witness :
  t_lcd (run init []) = L_Top /\ step (run init []) key_A = set_row 0 (run init []).
Proof.
  assert (H : t_lcd (run init []) = L_Top) by reflexivity.
  split; [exact H | exact (X3_key_A_outside_session [] H)].
Defined.

(** X4: while the mode is INPUT, B and D change nothing, and C empties
    the current entry (length 0, flag set for the display) without
    touching the stage, the unit, the mode or the thresholds. *)
Theorem X4_command_keys_in_input (s : state) (Hm : mode s = INPUT) :
  isr_c3 (set_row 1 s) = set_row 1 s
  /\ isr_c3 (set_row 3 s) = set_row 3 s
  /\ isr_c3 (set_row 2 s) = set_session (mkSession (input_stage (session s)) 0 [] true) (set_row 2 s).
Proof.
  unfold isr_c3. cbn. rewrite Hm. cbn.
  split; [reflexivity | split; [| reflexivity]].
  destruct s; cbn in *; subst; reflexivity.
Qed.

Lemma X4_witness :
  let s := run init [key_D] in
  mode s = INPUT
  /\ (isr_c3 (set_row 1 s) = set_row 1 s
      /\ isr_c3 (set_row 3 s) = set_row 3 s
      /\ isr_c3 (set_row 2 s) = set_session (mkSession (input_stage (session s)) 0 [] true) (set_row 2 s)).
Proof.
  assert (H : mode (run init [key_D]) = INPUT) by reflexivity.
  split; [exact H | exact (X4_command_keys_in_input _ H)].
Defined.

(** X5: a digit column interrupt changes the state exactly when the mode
    is INPUT and [input_len < MAX_INPUT]; otherwise (another mode, or a
    full buffer) it leaves every variable as it is. *)
Theorem X5_digit_isr_noop_iff (f : Z -> option ascii) (s : state) :
  isr_digit f s = s <-> ~ (mode s = INPUT /\ input_len (session s) < MAX_INPUT).
Proof.
  unfold isr_digit. split.
  - intros E [Hm Hl]. rewrite Hm, Z.eqb_refl in E.
    apply Z.ltb_lt in Hl. rewrite Hl in E. cbn in E.
    apply (f_equal (fun s => input_len (session s))) in E. cbn in E. lia.
  - intros H. destruct (Z.eqb_spec (mode s) INPUT) as [Hm | Hm]; [| reflexivity].
    destruct (Z.ltb_spec (input_len (session s)) MAX_INPUT) as [Hl | Hl]; [| reflexivity].
    exfalso. apply H. split; assumption.
Qed.

(** ** The scan loop *)

(** X6: the scan loop energises the rows round-robin: from any row in
    -1..3 (-1 is the initial value) the next row is [(row + 1) mod 4]. *)
Theorem X6_scan_round_robin (s : state) (Hr : -1 <= row s <= 3) :
  row (scan s) = (row s + 1) mod 4.
Proof.
  unfold scan. cbn. destruct (Z.ltb_spec 3 (row s + 1)).
  - replace (row s + 1) with 4 by lia. reflexivity.
  - rewrite Z.mod_small; lia.
Qed.

Lemma X6_witness : (-1 <= row init <= 3) /\ row (scan init) = (row init + 1) mod 4.
Proof.
  assert (H : -1 <= row init <= 3) by (cbn; lia).
  split; [exact H | exact (X6_scan_round_robin init H)].
Defined.

Lemma in_celsius_range c : 0 <= c <= 50 -> In c celsius_range.
Proof.
  intros H. apply in_map_iff. exists (Z.to_nat c). split; [lia |]. apply in_seq. lia.
Qed.

Lemma in_fahrenheit_range f : 32 <= f <= 122 -> In f fahrenheit_range.
Proof.
  intros H. apply in_map_iff. exists (Z.to_nat (f - 32)). split; [lia |]. apply in_seq. lia.
Qed.

Lemma celsius_pairs_all :
  forallb (fun a => forallb (celsius_pair_ok a) celsius_range) celsius_range = true.
Proof. vm_compute. reflexivity. Qed.

Lemma fahrenheit_pairs_all :
  forallb (fun a => forallb (fahrenheit_pair_ok a) fahrenheit_range) fahrenheit_range = true.
Proof. vm_compute. reflexivity. Qed.

Lemma pair_from_all (P : Z -> Z -> bool) (rg : list Z) a b :
  forallb (fun a => forallb (P a) rg) rg = true -> In a rg -> In b rg -> P a b = true.
Proof.
  intros H Ha Hb. rewrite forallb_forall in H. specialize (H a Ha).
  rewrite forallb_forall in H. exact (H b Hb).
Qed.

Lemma validate_input_parts t :
  validate_input t = valid_humidity_of t
    && valid_temp_c_of (temp_min_c t) (temp_max_c t)
    && valid_temp_f_of (temp_min_f t) (temp_max_f t).
Proof. reflexivity. Qed.

(** ** Validation *)

(** X7: for thresholds whose Fahrenheit fields are the conversions of the
    Celsius ones (what a session in Celsius stores), [validate_input]
    reduces to the humidity chain and the Celsius chain
    [0 <= temp_min_c <= temp_max_c <= 50]: the Fahrenheit chain then
    always holds. *)
Theorem X7_validate_celsius_entry (t : ThresholdConfig)
  (Hmin : temp_min_f t = toFahrenheit (temp_min_c t))
  (Hmax : temp_max_f t = toFahrenheit (temp_max_c t)) :
  validate_input t = valid_humidity_of t && valid_temp_c_of (temp_min_c t) (temp_max_c t).
Proof.
  rewrite validate_input_parts, Hmin, Hmax.
  destruct (valid_temp_c_of (temp_min_c t) (temp_max_c t)) eqn:Hc;
    [| rewrite !andb_false_r; reflexivity].
  unfold valid_temp_c_of, TEMP_MIN_C, TEMP_MAX_C in Hc.
  apply andb_true_iff in Hc as [Hc H2]. apply andb_true_iff in Hc as [H0 H1].
  apply Z.leb_le in H0, H1, H2.
  pose proof (pair_from_all _ _ (temp_min_c t) (temp_max_c t) celsius_pairs_all
                (in_celsius_range (temp_min_c t) ltac:(lia))
                (in_celsius_range (temp_max_c t) ltac:(lia))) as Hp.
  unfold celsius_pair_ok in Hp. apply Z.leb_le in H1. rewrite H1 in Hp. cbn [implb] in Hp.
  rewrite Hp, !andb_true_r. reflexivity.
Qed.

Lemma X7_witness :
  let t := mkConfig 10 (toFahrenheit 10) 40 (toFahrenheit 40) 30 80 in
  (temp_min_f t = toFahrenheit (temp_min_c t) /\ temp_max_f t = toFahrenheit (temp_max_c t))
  /\ validate_input t = valid_humidity_of t && valid_temp_c_of (temp_min_c t) (temp_max_c t).
Proof.
  cbv zeta. split; [split; reflexivity |].
  exact (X7_validate_celsius_entry (mkConfig 10 (toFahrenheit 10) 40 (toFahrenheit 40) 30 80)
           eq_refl eq_refl).
Defined.

(** X8: for thresholds entered in Fahrenheit (the Fahrenheit fields are
    the typed integers [a] and [b] as floats, the Celsius ones their
    [toCelcius]), with [32 <= a, b <= 122], [validate_input] holds
    exactly when the humidity chain holds and [a <= b]: the Celsius
    chain on the truncated conversions never rejects such an entry. *)
Theorem X8_validate_fahrenheit_entry (t : ThresholdConfig) (a b : Z)
  (Ha : 32 <= a <= 122) (Hb : 32 <= b <= 122)
  (Hmin : temp_min_f t = f32_of_int a) (Hmax : temp_max_f t = f32_of_int b)
  (Hminc : temp_min_c t = toCelcius (f32_of_int a))
  (Hmaxc : temp_max_c t = toCelcius (f32_of_int b)) :
  validate_input t = valid_humidity_of t && (a <=? b).
Proof.
  rewrite validate_input_parts, Hmin, Hmax, Hminc, Hmaxc, <- andb_assoc.
  pose proof (pair_from_all _ _ a b fahrenheit_pairs_all
                (in_fahrenheit_range _ Ha) (in_fahrenheit_range _ Hb)) as Hp.
  unfold fahrenheit_pair_ok in Hp. apply Bool.eqb_prop in Hp. rewrite Hp. reflexivity.
Qed.

Lemma X8_witness :
  let t := mkConfig (toCelcius (f32_of_int 50)) (f32_of_int 50)
                    (toCelcius (f32_of_int 100)) (f32_of_int 100) 30 80 in
  ((32 <= 50 <= 122) /\ (32 <= 100 <= 122))
  /\ validate_input t = valid_humidity_of t && (50 <=? 100).
Proof.
  cbv zeta. split; [split; lia |].
  exact (X8_validate_fahrenheit_entry
           (mkConfig (toCelcius (f32_of_int 50)) (f32_of_int 50)
                     (toCelcius (f32_of_int 100)) (f32_of_int 100) 30 80)
           50 100 ltac:(lia) ltac:(lia) eq_refl eq_refl eq_refl eq_refl).
Defined.

(** ** What the display shows during a session *)

Lemma lcd_step_wait_dirty rd s cs :
  t_lcd s = L_Wait cs -> input_stage (session s) <= cs -> input_modified (session s) = true ->
  lcd (lcd_step rd s) = ScrPrompt cs (input_str (session s))
  /\ session (lcd_step rd s) =
     mkSession (input_stage (session s)) (input_len (session s)) (input_str (session s)) false.
Proof.
  intros Hpc Hst Hd. unfold lcd_step. rewrite Hpc.
  apply Z.leb_le in Hst. rewrite Hst, Hd. split; reflexivity.
Qed.

(** X9: during a stage (the display task waiting at stage [cs], the
    stage not yet confirmed, mode INPUT), a digit key accepted by the
    interrupt, or the C key, is shown by the next display step: the
    prompt of stage [cs] with the new buffer, and the dirty flag
    [input_modified] cleared again. *)
Theorem X9_key_rendered_next_step (s : state) (cs : Z) (c : column) (r : Z)
  (d : ascii) (rd : reading)
  (Hpc : t_lcd s = L_Wait cs) (Hst : input_stage (session s) <= cs)
  (Hm : mode s = INPUT) (Hl : input_len (session s) < MAX_INPUT)
  (Hk : key_digit c r = Some d) :
  lcd (lcd_step rd (step s (Key c r))) = ScrPrompt cs (input_str (session s) ++ [d])
  /\ session (lcd_step rd (step s (Key c r))) =
     mkSession (input_stage (session s)) (input_len (session s) + 1)
               (input_str (session s) ++ [d]) false
  /\ lcd (lcd_step rd (step s key_C)) = ScrPrompt cs []
  /\ session (lcd_step rd (step s key_C)) = mkSession (input_stage (session s)) 0 [] false.
Proof.
  destruct (key_digit_step s c r d Hm Hk) as [_ Hs]. apply Z.ltb_lt in Hl. rewrite Hl in Hs.
  assert (Ht : t_lcd (step s (Key c r)) = L_Wait cs).
  { cbn [step]. rewrite isr_t_lcd. exact Hpc. }
  assert (HC : step s key_C = set_session (mkSession (input_stage (session s)) 0 [] true) (set_row 2 s)).
  { unfold key_C, step. cbn [isr]. unfold isr_c3. cbn. rewrite Hm. reflexivity. }
  destruct (lcd_step_wait_dirty rd (step s (Key c r)) cs Ht) as [H1 H2];
    [rewrite Hs; exact Hst | rewrite Hs; reflexivity |].
  destruct (lcd_step_wait_dirty rd (step s key_C) cs) as [H3 H4];
    [rewrite HC; exact Hpc | rewrite HC; exact Hst | rewrite HC; reflexivity |].
  rewrite H1, H2, H3, H4, Hs, HC. repeat split; reflexivity.
Qed.

Lemma X9_witness :
  let s := run init [key_D; LcdStep rd_room] in
  (t_lcd s = L_Wait 0 /\ input_stage (session s) <= 0 /\ mode s = INPUT
   /\ input_len (session s) < MAX_INPUT /\ key_digit Col0 0 = Some "1"%char)
  /\ (lcd (lcd_step rd_room (step s (Key Col0 0))) = ScrPrompt 0 (input_str (session s) ++ ["1"%char])
      /\ session (lcd_step rd_room (step s (Key Col0 0))) =
         mkSession (input_stage (session s)) (input_len (session s) + 1)
                   (input_str (session s) ++ ["1"%char]) false
      /\ lcd (lcd_step rd_room (step s key_C)) = ScrPrompt 0 []
      /\ session (lcd_step rd_room (step s key_C)) = mkSession (input_stage (session s)) 0 [] false).
Proof.
  cbv zeta.
  assert (H1 : t_lcd (run init [key_D; LcdStep rd_room]) = L_Wait 0) by (vm_compute; reflexivity).
  assert (H2 : input_stage (session (run init [key_D; LcdStep rd_room])) <= 0) by (vm_compute; discriminate).
  assert (H3 : mode (run init [key_D; LcdStep rd_room]) = INPUT) by (vm_compute; reflexivity).
  assert (H4 : input_len (session (run init [key_D; LcdStep rd_room])) < MAX_INPUT) by (vm_compute; reflexivity).
  assert (H5 : key_digit Col0 0 = Some "1"%char) by reflexivity.
  split; [exact (conj H1 (conj H2 (conj H3 (conj H4 H5)))) |].
  exact (X9_key_rendered_next_step _ 0 Col0 0 "1"%char rd_room H1 H2 H3 H4 H5).
Defined.

(** ** ALERT *)

Lemma isr_frame c s : lcd (isr c s) = lcd s /\ t_monitor (isr c s) = t_monitor s.
Proof.
  destruct c; cbn [isr];
    [unfold isr_c0 | unfold isr_c1 | unfold isr_c2 | unfold isr_c3];
    try unfold isr_digit;
    repeat match goal with |- context [if ?b then _ else _] => destruct b end;
    split; reflexivity.
Qed.

(** X10: once the monitor task has raised an alert (mode ALERT, the
    monitor task in [alert()], the display task at the top of its loop),
    every event other than a B or D key keeps the mode ALERT, the alert
    message on the LCD and both tasks where they are. *)
Theorem X10_alert_persists (s : state) (e : event)
  (Hm : mode s = ALERT) (Ht : t_lcd s = L_Top) (Hmon : t_monitor s = M_Alert)
  (He : ~ is_B_or_D s e) :
  mode (step s e) = ALERT /\ lcd (step s e) = lcd s
  /\ t_lcd (step s e) = L_Top /\ t_monitor (step s e) = M_Alert.
Proof.
  destruct e as [| c | c r | rd | rd]; cbn [step].
  - unfold scan. cbn. auto.
  - destruct (isr_frame c s) as [H1 H2].
    rewrite H1, H2, isr_t_lcd, Ht, Hmon.
    destruct (isr_mode c s) as [H | [[-> [Hr _]] | [-> [Hr _]]]];
      [rewrite H; auto | exfalso; apply He; cbn; auto | exfalso; apply He; cbn; auto].
  - destruct (isr_frame c (set_row r s)) as [H1 H2].
    rewrite H1, H2, isr_t_lcd. cbn [lcd t_monitor t_lcd set_row]. rewrite Ht, Hmon.
    destruct (isr_mode c (set_row r s)) as [H | [[-> [Hr _]] | [-> [Hr _]]]];
      [rewrite H; auto | exfalso; apply He; cbn in Hr |- *; auto | exfalso; apply He; cbn in Hr |- *; auto].
  - unfold lcd_step. rewrite Ht, Hm. cbn. rewrite Hm, Ht, Hmon. auto.
  - unfold monitor_step. rewrite Hmon, Hm. cbn. rewrite Hm, Ht, Hmon. auto.
Qed.

Lemma X10_witness :
  (mode s_alert = ALERT /\ t_lcd s_alert = L_Top /\ t_monitor s_alert = M_Alert
   /\ ~ is_B_or_D s_alert key_A)
  /\ (mode (step s_alert key_A) = ALERT /\ lcd (step s_alert key_A) = lcd s_alert
      /\ t_lcd (step s_alert key_A) = L_Top /\ t_monitor (step s_alert key_A) = M_Alert).
Proof.
  assert (H1 : mode s_alert = ALERT) by (vm_compute; reflexivity).
  assert (H2 : t_lcd s_alert = L_Top) by (vm_compute; reflexivity).
  assert (H3 : t_monitor s_alert = M_Alert) by (vm_compute; reflexivity).
  assert (H4 : ~ is_B_or_D s_alert key_A) by (cbn; lia).
  split; [exact (conj H1 (conj H2 (conj H3 H4))) |].
  exact (X10_alert_persists s_alert key_A H1 H2 H3 H4).
Defined.

(** ** The monitor's range check *)

(** X11: with Celsius selected, one pass of the body of
    [while (mode == MONITOR)] raises no alert exactly when the reading
    lies within [temp_min_c, temp_max_c] and [humidity_min, humidity_max]
    (bounds included): then only the stored reading changes; otherwise the
    mode becomes ALERT and the task enters [alert()]. *)
Theorem X11_monitor_celsius_range (rd : reading) (s : state)
  (Hb : t_monitor s = M_Body) (Hu : unit s = CELCIUS) :
  ((temp_min_c (cfg s) <= celcius rd <= temp_max_c (cfg s)
    /\ humidity_min (cfg s) <= humidity rd <= humidity_max (cfg s)) ->
   monitor_step rd s = set_t_monitor M_Top (update_sensor rd s))
  /\ (~ (temp_min_c (cfg s) <= celcius rd <= temp_max_c (cfg s)
         /\ humidity_min (cfg s) <= humidity rd <= humidity_max (cfg s)) ->
      mode (monitor_step rd s) = ALERT /\ t_monitor (monitor_step rd s) = M_Alert).
Proof.
  unfold monitor_step. rewrite Hb. unfold breach.
  replace (unit (update_sensor rd s)) with CELCIUS by (rewrite <- Hu; reflexivity).
  change (cfg (update_sensor rd s)) with (cfg s).
  change (sensor (update_sensor rd s)) with rd.
  unfold CELCIUS, FAHRENHEIT. cbn [Bool.eqb andb orb].
  destruct (Z.ltb_spec (celcius rd) (temp_min_c (cfg s)));
    [split; intros H'; [exfalso; lia | split; reflexivity] |].
  destruct (Z.ltb_spec (temp_max_c (cfg s)) (celcius rd));
    [split; intros H'; [exfalso; lia | split; reflexivity] |].
  destruct (Z.ltb_spec (humidity rd) (humidity_min (cfg s)));
    [split; intros H'; [exfalso; lia | split; reflexivity] |].
  destruct (Z.ltb_spec (humidity_max (cfg s)) (humidity rd));
    [split; intros H'; [exfalso; lia | split; reflexivity] |].
  split; intros H'; [reflexivity | exfalso; apply H'; lia].
Qed.

Lemma X11_witness :
  let s := run s_monitoring [MonStep rd_room] in
  (t_monitor s = M_Body /\ unit s = CELCIUS)
  /\ (((temp_min_c (cfg s) <= celcius rd_hot <= temp_max_c (cfg s)
       /\ humidity_min (cfg s) <= humidity rd_hot <= humidity_max (cfg s)) ->
      monitor_step rd_hot s = set_t_monitor M_Top (update_sensor rd_hot s))
     /\ (~ (temp_min_c (cfg s) <= celcius rd_hot <= temp_max_c (cfg s)
            /\ humidity_min (cfg s) <= humidity rd_hot <= humidity_max (cfg s)) ->
         mode (monitor_step rd_hot s) = ALERT /\ t_monitor (monitor_step rd_hot s) = M_Alert)).
Proof.
  cbv zeta.
  assert (H1 : t_monitor (run s_monitoring [MonStep rd_room]) = M_Body) by (vm_compute; reflexivity).
  assert (H2 : unit (run s_monitoring [MonStep rd_room]) = CELCIUS) by (vm_compute; reflexivity).
  split; [exact (conj H1 H2) |].
  exact (X11_monitor_celsius_range rd_hot _ H1 H2).
Defined.

(** ** Who writes the thresholds and the unit *)

Lemma isr_cfg c s : cfg (isr c s) = cfg s.
Proof.
  destruct c; cbn [isr];
    [unfold isr_c0 | unfold isr_c1 | unfold isr_c2 | unfold isr_c3];
    try unfold isr_digit;
    repeat match goal with |- context [if ?b then _ else _] => destruct b end;
    reflexivity.
Qed.

Lemma monitor_step_cfg_unit rd s :
  cfg (monitor_step rd s) = cfg s /\ unit (monitor_step rd s) = unit s.
Proof.
  unfold monitor_step. destruct (t_monitor s);
    repeat (destruct (_ =? _) || destruct (breach _)); split; reflexivity.
Qed.

(** X12: the thresholds are written only by the display task, when it
    leaves the wait loop of a stage: no key interrupt, scan step or
    monitor step changes them, and a display step changes them only at
    [L_Wait cs] with [input_stage] past [cs], storing the parsed entry
    of stage [cs]. *)
Theorem X12_thresholds_written_by_store (s : state) (e : event) :
  cfg (step s e) = cfg s
  \/ (exists rd cs, e = LcdStep rd /\ t_lcd s = L_Wait cs
        /\ cs < input_stage (session s) /\ cfg (step s e) = store_stage cs s).
Proof.
  destruct e as [| c | c r | rd | rd]; cbn [step].
  - left; reflexivity.
  - left; apply isr_cfg.
  - left; exact (isr_cfg c (set_row r s)).
  - destruct (t_lcd s) as [| cs] eqn:Ht.
    + left. unfold lcd_step. rewrite Ht.
      repeat match goal with |- context [if ?b then _ else _] => destruct b end;
        reflexivity.
    + destruct (Z.leb_spec (input_stage (session s)) cs) as [Hle | Hgt].
      * left. unfold lcd_step. rewrite Ht. apply Z.leb_le in Hle. rewrite Hle.
        destruct (input_modified _); reflexivity.
      * right. exists rd, cs. split; [reflexivity |]. split; [reflexivity |].
        split; [exact Hgt | exact (lcd_step_store rd s cs Ht Hgt)].
  - left; apply monitor_step_cfg_unit.
Qed.

(** X13: the unit changes only on a press of C outside INPUT mode, which
    flips it; the scan loop, the digit keys, A, B, D, both tasks and C
    in INPUT mode never change it. *)
Theorem X13_unit_written_by_C (s : state) (e : event) :
  unit (step s e) = unit s
  \/ (mode s <> INPUT /\ (e = key_C \/ (e = Isr Col3 /\ row s = 2))
      /\ unit (step s e) = negb (unit s)).
Proof.
  assert (Hisr : forall c s', unit (isr c s') = unit s'
           \/ (c = Col3 /\ row s' = 2 /\ mode s' <> INPUT /\ unit (isr c s') = negb (unit s'))).
  { intros c s'. destruct c; cbn [isr];
      [unfold isr_c0, isr_digit | unfold isr_c1, isr_digit | unfold isr_c2, isr_digit | unfold isr_c3];
      try (left; destruct (_ && _); reflexivity).
    destruct (Z.eqb_spec (row s') 0); [left; destruct (negb _); reflexivity |].
    destruct (Z.eqb_spec (row s') 1); [left; destruct (negb _); reflexivity |].
    destruct (Z.eqb_spec (row s') 2) as [H2 |].
    - destruct (Z.eqb_spec (mode s') INPUT) as [Hm | Hm]; [left; reflexivity |].
      right. repeat split; auto.
    - destruct (Z.eqb_spec (row s') 3); left; reflexivity. }
  destruct e as [| c | c r | rd | rd]; cbn [step].
  - left; reflexivity.
  - destruct (Hisr c s) as [H | [-> [Hr [Hm H]]]]; [left; exact H |].
    right. split; [exact Hm | split; [right; split; [reflexivity | exact Hr] | exact H]].
  - destruct (Hisr c (set_row r s)) as [H | [-> [Hr [Hm H]]]]; [left; exact H |].
    right. cbn in Hr, Hm, H. subst r.
    split; [exact Hm | split; [left; reflexivity | exact H]].
  - left. unfold lcd_step. destruct (t_lcd s);
      repeat match goal with |- context [if ?b then _ else _] => destruct b end;
      reflexivity.
  - left; apply monitor_step_cfg_unit.
Qed.
